(** * SE(2) SpaceMouse controller

    A shallow embedding of [Se2SpaceMouse]
    (source/isaaclab/isaaclab/devices/spacemouse/se2_spacemouse.py).

    Numbers are binary64 floats, as in Python and in a [np.zeros] array.
    NumPy arrays live in a store and are named by their address, because
    [advance] hands out the array itself, [reset] overwrites it in place and
    [_process_twist_command] binds a new one.  Methods run in a monad that
    threads the store and the object, can raise, and logs the operations it
    performs. *)

From Stdlib Require Import PrimFloat.
From stdpp Require Import gmap strings list.

(* Python floats are the nearest binary64 value of the literal. *)
Set Warnings "-inexact-float".

(** ** Values *)

(** Python exceptions the methods can raise.  [MemoryFault] is not a Python
    exception: it marks a reference to an array that is not in the store,
    which a well-formed object never holds. *)
Inductive exn : Type :=
  | IndexError
  | KeyError
  | MemoryFault.

Inductive result (A : Type) : Type :=
  | Ok (a : A)
  | Raise (e : exn).
Arguments Ok {A} a.
Arguments Raise {A} e.

(** Modelled from the spec: the device reading of the base class, which is
    not part of the source file; the spec gives it as
    [state{buttons: bool[], axes: float[6]}]. *)
Record MouseState : Type := {
  buttons : list bool;
  axes : list float
}.

(** Addresses of arrays, and the store. *)
Definition loc : Type := positive.

(** Operations a method performs, in the order it performs them. *)
Inductive event : Type :=
  | EvStartTimer (interval_ms : float)
  | EvReadMouseState
  | EvButton (i : nat)
  | EvContains (key : string)
  | EvGetItem (key : string)
  | EvFill (l : loc)
  | EvTransform
  | EvZeros (l : loc)
  | EvSetItem (l : loc) (i : nat).

Definition is_timer_or_read (e : event) : bool :=
  match e with
  | EvStartTimer _ | EvReadMouseState => true
  | _ => false
  end.

Definition is_lookup_or_reset (e : event) : bool :=
  match e with
  | EvContains _ | EvGetItem _ | EvFill _ => true
  | _ => false
  end.

Definition is_getitem (key : string) (e : event) : bool :=
  match e with
  | EvGetItem k => bool_decide (k = key)
  | _ => false
  end.

Section Device.

(** What a callback can act on when it is called. *)
Context {World : Type}.

(** Modelled from the spec: [_transform_state_to_twist] of the base class,
    which is not part of the source file.  It turns the axes of a reading
    into the twist [vx, vy, vz, wx, wy, wz]. *)
Variable axes_to_twist : list float → list float.

(** ** The object *)

(** The first three fields belong to the base class. *)
Record Se2SpaceMouse : Type := {
  _interval_ms : float;
  _state : MouseState;
  _additional_callbacks : gmap string (World → World);
  _v_x_sensitivity : float;
  _v_y_sensitivity : float;
  _omega_z_sensitivity : float;
  _base_command : loc
}.

Record Machine : Type := {
  self : Se2SpaceMouse;
  heap : gmap loc (list float);
  world : World
}.

Definition with_self (f : Se2SpaceMouse → Se2SpaceMouse) (m : Machine) : Machine :=
  {| self := f (self m); heap := heap m; world := world m |}.

Definition with_heap (h : gmap loc (list float)) (m : Machine) : Machine :=
  {| self := self m; heap := h; world := world m |}.

Definition set_state (s : MouseState) (o : Se2SpaceMouse) : Se2SpaceMouse :=
  {| _interval_ms := _interval_ms o;
     _state := s;
     _additional_callbacks := _additional_callbacks o;
     _v_x_sensitivity := _v_x_sensitivity o;
     _v_y_sensitivity := _v_y_sensitivity o;
     _omega_z_sensitivity := _omega_z_sensitivity o;
     _base_command := _base_command o |}.

Definition set_additional_callbacks (d : gmap string (World → World))
    (o : Se2SpaceMouse) : Se2SpaceMouse :=
  {| _interval_ms := _interval_ms o;
     _state := _state o;
     _additional_callbacks := d;
     _v_x_sensitivity := _v_x_sensitivity o;
     _v_y_sensitivity := _v_y_sensitivity o;
     _omega_z_sensitivity := _omega_z_sensitivity o;
     _base_command := _base_command o |}.

Definition set_base_command (l : loc) (o : Se2SpaceMouse) : Se2SpaceMouse :=
  {| _interval_ms := _interval_ms o;
     _state := _state o;
     _additional_callbacks := _additional_callbacks o;
     _v_x_sensitivity := _v_x_sensitivity o;
     _v_y_sensitivity := _v_y_sensitivity o;
     _omega_z_sensitivity := _omega_z_sensitivity o;
     _base_command := l |}.

(** ** The monad of methods *)

Definition M (A : Type) : Type := Machine → result A * Machine * list event.

Definition ret {A : Type} (a : A) : M A := λ m, (Ok a, m, []).

(** A raised exception ends the method; what it did before stays done. *)
Definition bind {A B : Type} (c : M A) (k : A → M B) : M B := λ m,
  match c m with
  | (Ok a, m1, t1) =>
      match k a m1 with
      | (r, m2, t2) => (r, m2, t1 ++ t2)
      end
  | (Raise e, m1, t1) => (Raise e, m1, t1)
  end.

Definition raise {A : Type} (e : exn) : M A := λ m, (Raise e, m, []).

Notation "x <- c ;; k" := (bind c (λ x, k))
  (at level 100, c at next level, right associativity).
Notation "c ;; k" := (bind c (λ _, k))
  (at level 100, k at level 200, right associativity).

Definition gets {A : Type} (f : Machine → A) : M A := λ m, (Ok (f m), m, []).
Definition modify (f : Machine → Machine) : M unit := λ m, (Ok tt, f m, []).
Definition emit (e : event) : M unit := λ m, (Ok tt, m, [e]).

Definition outcome {A : Type} (x : result A * Machine * list event) : result A := x.1.1.
Definition final {A : Type} (x : result A * Machine * list event) : Machine := x.1.2.
Definition trace {A : Type} (x : result A * Machine * list event) : list event := x.2.

(** ** Python and NumPy primitives *)

(** [xs[i]] for a constant index [i >= 0]. *)
Definition getitem {A : Type} (xs : list A) (i : nat) : M A :=
  match xs !! i with
  | Some x => ret x
  | None => raise IndexError
  end.

(** [np.zeros(n)]: a new array, at an address not in use. *)
Definition np_zeros (n : nat) : M loc :=
  h <- gets heap ;;
  let l := fresh (dom h) in
  emit (EvZeros l);;
  modify (with_heap (<[l := replicate n 0%float]> h));;
  ret l.

(** [a.fill(v)]: every element of the array at [l] becomes [v]. *)
Definition ndarray_fill (l : loc) (v : float) : M unit :=
  emit (EvFill l);;
  h <- gets heap ;;
  match h !! l with
  | Some a => modify (with_heap (<[l := replicate (length a) v]> h))
  | None => raise MemoryFault
  end.

(** [a[i] = v] for a constant index [i >= 0]. *)
Definition ndarray_setitem (l : loc) (i : nat) (v : float) : M unit :=
  emit (EvSetItem l i);;
  h <- gets heap ;;
  match h !! l with
  | Some a =>
      if decide (i < length a)
      then modify (with_heap (<[l := <[i := v]> a]> h))
      else raise IndexError
  | None => raise MemoryFault
  end.

(** [key in self._additional_callbacks]. *)
Definition callbacks_contains (key : string) : M bool :=
  emit (EvContains key);;
  d <- gets (λ m, _additional_callbacks (self m)) ;;
  ret (if d !! key is Some _ then true else false).

(** [self._additional_callbacks[key]]: the value stored under [key]. *)
Definition callbacks_getitem (key : string) : M (World → World) :=
  emit (EvGetItem key);;
  d <- gets (λ m, _additional_callbacks (self m)) ;;
  match d !! key with
  | Some f => ret f
  | None => raise KeyError
  end.

(** [self._state.buttons[i]]. *)
Definition button (i : nat) : M bool :=
  emit (EvButton i);;
  s <- gets (λ m, _state (self m)) ;;
  getitem (buttons s) i.

(** [x and not y]: [y] is evaluated only when [x] is true. *)
Definition and_not (x y : M bool) : M bool :=
  b <- x ;;
  if b then c <- y ;; ret (negb c) else ret false.

(** ** The base class *)

(** Modelled from the spec: [SpaceMouseBase._start_timer], which is not
    part of the source file; it arms the timer for the interval the
    constructor was given. *)
Definition _start_timer : M unit :=
  iv <- gets (λ m, _interval_ms (self m)) ;;
  emit (EvStartTimer iv).

(** Modelled from the spec: [SpaceMouseBase._read_mouse_state], which is
    not part of the source file; [hw] is what the device reports at this
    poll, kept in [self._state]. *)
Definition _read_mouse_state (hw : MouseState) : M unit :=
  emit EvReadMouseState;;
  modify (with_self (set_state hw)).

(** Modelled from the spec: the call of [_transform_state_to_twist], of the
    base class, on a reading. *)
Definition _transform_state_to_twist (s : MouseState) : M (list float) :=
  emit EvTransform;;
  ret (axes_to_twist (axes s)).

(** Modelled from the spec: [add_callback] of the base class, which is not
    part of the source file: "a mapping of button-name to optional
    callback". *)
Definition add_callback (key : string) (f : World → World) : M unit :=
  modify (with_self (λ o,
    set_additional_callbacks (<[key := f]> (_additional_callbacks o)) o)).

(** ** The class *)

(** Modelled from the spec: the constructor of the base class
    [SpaceMouseBase], which is not part of the source file.  It keeps the
    interval ("every 10 ms (configurable)") and starts with no callback
    and an empty reading; every poll replaces the reading before it looks
    at it. *)
Definition SpaceMouseBase__init__ (interval_ms : float)
    : float * MouseState * gmap string (World → World) :=
  (interval_ms, {| buttons := []; axes := [] |}, ∅).

(** [__init__]; an argument left out takes its default. *)
Definition __init__ (v_x_sensitivity v_y_sensitivity omega_z_sensitivity
    interval_ms : option float) (h : gmap loc (list float)) (w : World) : Machine :=
  let '(iv, st, cb) := SpaceMouseBase__init__ (default 10.0%float interval_ms) in
  let l := fresh (dom h) in
  {| self :=
       {| _interval_ms := iv;
          _state := st;
          _additional_callbacks := cb;
          _v_x_sensitivity := default 0.8%float v_x_sensitivity;
          _v_y_sensitivity := default 0.4%float v_y_sensitivity;
          _omega_z_sensitivity := default 1.0%float omega_z_sensitivity;
          _base_command := l |};
     heap := <[l := replicate 3 0%float]> h;
     world := w |}.

Definition advance : M loc :=
  gets (λ m, _base_command (self m)).

Definition reset : M unit :=
  c <- gets (λ m, _base_command (self m)) ;;
  ndarray_fill c 0%float.

Definition _process_twist_command (twist : list float) : M unit :=
  z <- np_zeros 3 ;;
  modify (with_self (set_base_command z));;
  sx <- gets (λ m, _v_x_sensitivity (self m)) ;;
  t0 <- getitem twist 0 ;;
  c0 <- gets (λ m, _base_command (self m)) ;;
  ndarray_setitem c0 0 (sx * t0)%float;;
  sy <- gets (λ m, _v_y_sensitivity (self m)) ;;
  t1 <- getitem twist 1 ;;
  c1 <- gets (λ m, _base_command (self m)) ;;
  ndarray_setitem c1 1 (sy * t1)%float;;
  sw <- gets (λ m, _omega_z_sensitivity (self m)) ;;
  t5 <- getitem twist 5 ;;
  c2 <- gets (λ m, _base_command (self m)) ;;
  ndarray_setitem c2 2 (sw * t5)%float.

(** The statement [if key in d: d[key]]: the value is looked up and
    dropped. *)
Definition run_additional_callbacks (key : string) : M unit :=
  has <- callbacks_contains key ;;
  if has then _ <- callbacks_getitem key ;; ret tt else ret tt.

Definition _listen_for_updates (hw : MouseState) : M unit :=
  _start_timer;;
  _read_mouse_state hw;;
  left <- and_not (button 0) (button 1) ;;
  (if left then
     run_additional_callbacks "L"%string
   else
     right <- and_not (button 1) (button 0) ;;
     if right then
       reset;;
       run_additional_callbacks "R"%string
     else ret tt);;
  s <- gets (λ m, _state (self m)) ;;
  twist <- _transform_state_to_twist s ;;
  _process_twist_command twist.

(** ** Observations *)

(** The contents of the array [self._base_command] names. *)
Definition command (m : Machine) : option (list float) :=
  heap m !! _base_command (self m).

(** The contents of the array that [advance()] returns in [m]. *)
Definition advance_value (m : Machine) : option (list float) :=
  match advance m with
  | (Ok l, m', _) => heap m' !! l
  | (Raise _, _, _) => None
  end.

(** The object's array is in the store and has three elements. *)
Definition command_ok (m : Machine) : Prop :=
  ∃ a, command m = Some a ∧ length a = 3.

(** The machine with the stored reading blanked: what is left is the
    command, the rest of the object, the store and the world. *)
Definition forget_reading (m : Machine) : Machine :=
  with_self (set_state {| buttons := []; axes := [] |}) m.

(** States the object can be in: built by the constructor, then used
    through its methods, whether they return or raise. *)
Inductive reachable : Machine → Prop :=
  | reach_init sx sy sw iv h w :
      reachable (__init__ sx sy sw iv h w)
  | reach_advance m :
      reachable m → reachable (final (advance m))
  | reach_reset m :
      reachable m → reachable (final (reset m))
  | reach_add_callback key f m :
      reachable m → reachable (final (add_callback key f m))
  | reach_listen hw m :
      reachable m → reachable (final (_listen_for_updates hw m))
  | reach_process twist m :
      reachable m → reachable (final (_process_twist_command twist m)).

End Device.

Arguments Se2SpaceMouse World : clear implicits.
Arguments Machine World : clear implicits.

(** What [_process_twist_command] returns or raises for a twist, and what it
    has written to the new array by then, as a function of the three
    sensitivities and the twist. *)
Definition twist_result (sx sy sw : float) (twist : list float) : result unit * list float :=
  match twist !! 0 with
  | None => (Raise IndexError, [0; 0; 0]%float)
  | Some t0 =>
      match twist !! 1 with
      | None => (Raise IndexError, [sx * t0; 0; 0]%float)
      | Some t1 =>
          match twist !! 5 with
          | None => (Raise IndexError, [sx * t0; sy * t1; 0]%float)
          | Some t5 => (Ok tt, [sx * t0; sy * t1; sw * t5]%float)
          end
      end
  end.

(** Events of the twist projection: neither the timer, the device, the
    callback table nor [fill]. *)
Definition quiet (e : event) : bool :=
  negb (is_timer_or_read e) && negb (is_lookup_or_reset e).

(** ** Concrete devices and readings *)

(** Modelled from the spec: a [_transform_state_to_twist] that takes the six
    axes of the reading as the twist. *)
Definition axes_as_twist (ax : list float) : list float := ax.

(** A callback that counts its calls in the world. *)
Definition count_call (w : nat) : nat := S w.

Definition a_twist : list float := [1; 2; 3; 4; 5; 6]%float.

Definition hw_none : MouseState := {| buttons := [false; false]; axes := a_twist |}.
Definition hw_left : MouseState := {| buttons := [true; false]; axes := a_twist |}.
Definition hw_right : MouseState := {| buttons := [false; true]; axes := a_twist |}.
Definition hw_both : MouseState := {| buttons := [true; true]; axes := a_twist |}.

(** [Se2SpaceMouse()] with every argument at its default. *)
Definition dev0 : Machine nat := __init__ None None None None ∅ 0.

(** [dev0] after [add_callback("L", f)] and [add_callback("R", f)]. *)
Definition dev_LR : Machine nat :=
  final (add_callback "R" count_call (final (add_callback "L" count_call dev0))).

(** [dev0] after a poll with no button pressed. *)
Definition dev_moving : Machine nat :=
  final (_listen_for_updates axes_as_twist hw_none dev0).

(** A device with another interval and another command, built on a store
    that already holds an array; its sensitivities are the defaults. *)
Definition dev_other : Machine nat :=
  final (_process_twist_command [7; 7; 7; 7; 7; 7]%float
    (__init__ None None None (Some 20%float) {[ 5%positive := [9; 9]%float ]} 3)).

(** What the constructor sets and no method writes: the interval, the
    callback table and the three sensitivities. *)
Definition configuration {World : Type} (o : Se2SpaceMouse World)
    : float * gmap string (World → World) * float * float * float :=
  (_interval_ms o, _additional_callbacks o,
   _v_x_sensitivity o, _v_y_sensitivity o, _omega_z_sensitivity o).

(** A reading with one button only, and one with two axes only. *)
Definition hw_one_button : MouseState := {| buttons := [true]; axes := a_twist |}.
Definition hw_two_axes : MouseState :=
  {| buttons := [false; true]; axes := [1; 2]%float |}.

(** * Proofs *)

(** Symbolic execution of a method on a machine given by its fields. *)
Ltac run :=
  repeat (
    cbv beta iota zeta delta
      [_listen_for_updates run_additional_callbacks reset advance add_callback
       _start_timer _read_mouse_state _transform_state_to_twist
       and_not button callbacks_contains callbacks_getitem
       ndarray_fill ndarray_setitem np_zeros getitem
       bind ret raise gets modify emit outcome final trace
       with_heap with_self set_state set_base_command set_additional_callbacks
       forget_reading command advance_value
       self heap world buttons axes fst snd negb
       _interval_ms _state _additional_callbacks _base_command
       _v_x_sensitivity _v_y_sensitivity _omega_z_sensitivity
       replicate length app];
    rewrite ?lookup_insert_eq, ?insert_insert_eq;
    try rewrite decide_True by (cbn; lia);
    repeat match goal with
      | H : ?h !! ?k = _ |- context [?h !! ?k] => rewrite H
      | |- context [@lookup nat ?A (list ?A) ?I ?i (?x :: ?l)] =>
          let t := eval cbn in (@lookup nat A (list A) I i (x :: l)) in
          change (@lookup nat A (list A) I i (x :: l)) with t
      | |- context [@lookup nat ?A (list ?A) ?I ?i []] =>
          change (@lookup nat A (list A) I i []) with (@None A)
      end).

Section Proofs.

Context {World : Type}.
Variable axes_to_twist : list float → list float.
Implicit Types (m : Machine World) (twist : list float) (hw : MouseState).

Lemma twist_result_length sx sy sw twist :
  length (twist_result sx sy sw twist).2 = 3.
Proof.
  unfold twist_result.
  destruct (twist !! 0); [destruct (twist !! 1); [destruct (twist !! 5)|]|];
    reflexivity.
Qed.

Lemma twist_result_ok sx sy sw twist :
  6 ≤ length twist → (twist_result sx sy sw twist).1 = Ok tt.
Proof.
  intros Hlen. unfold twist_result.
  destruct (twist !! 0) eqn:E0; [destruct (twist !! 1) eqn:E1; [destruct (twist !! 5) eqn:E5|]|];
    [reflexivity| | |];
    match goal with H : _ !! _ = None |- _ => apply lookup_ge_None in H; lia end.
Qed.

(** [_process_twist_command] in one equation: the new array is bound to the
    object at a fresh address; the old array and the world are as before. *)
Lemma process_run twist m :
  outcome (_process_twist_command twist m) =
    (twist_result (_v_x_sensitivity (self m)) (_v_y_sensitivity (self m))
       (_omega_z_sensitivity (self m)) twist).1 ∧
  final (_process_twist_command twist m) =
    {| self := set_base_command (fresh (dom (heap m))) (self m);
       heap := <[fresh (dom (heap m)) :=
                 (twist_result (_v_x_sensitivity (self m)) (_v_y_sensitivity (self m))
                    (_omega_z_sensitivity (self m)) twist).2]> (heap m);
       world := world m |} ∧
  forallb quiet (trace (_process_twist_command twist m)) = true.
Proof.
  destruct m as [[iv st cb sx sy sw c] h w].
  unfold twist_result, _process_twist_command.
  destruct (twist !! 0) as [t0|] eqn:E0;
    [destruct (twist !! 1) as [t1|] eqn:E1; [destruct (twist !! 5) as [t5|] eqn:E5|]|].
  all: run; auto.
Qed.

(** Replaces the run of [_process_twist_command] in the goal by what
    [process_run] says of it. *)
Ltac finish_process :=
  match goal with
  | |- context [_process_twist_command ?tw ?m] =>
      let Ho := fresh "Ho" in
      let Hf := fresh "Hf" in
      let Ht := fresh "Ht" in
      destruct (process_run tw m) as (Ho & Hf & Ht);
      destruct (_process_twist_command tw m) as [[? ?] ?];
      cbn [outcome final trace fst snd] in Ho, Hf, Ht; subst
  end.

Lemma process_command_ok twist m :
  command_ok (final (_process_twist_command twist m)).
Proof.
  destruct (process_run twist m) as (_ & -> & _).
  eexists. unfold command. cbn [heap self set_base_command _base_command].
  rewrite lookup_insert_eq. split; [reflexivity | apply twist_result_length].
Qed.

Lemma reset_run m a :
  command m = Some a →
  reset m = (Ok tt,
             with_heap (<[_base_command (self m) := replicate (length a) 0%float]> (heap m)) m,
             [EvFill (_base_command (self m))]).
Proof.
  destruct m as [[iv st cb sx sy sw c] h w]. unfold command. cbn [heap self _base_command].
  intros Ha. run. reflexivity.
Qed.

Lemma reset_command_ok m :
  command_ok m → command_ok (final (reset m)).
Proof.
  intros (a & Ha & Hlen). rewrite (reset_run m a Ha).
  exists (replicate (length a) 0%float). unfold command, final. cbn.
  rewrite lookup_insert_eq, length_replicate. auto.
Qed.

Lemma init_command_ok sx sy sw iv h (w : World) :
  command_ok (__init__ sx sy sw iv h w).
Proof.
  exists (replicate 3 0%float). unfold command, __init__, SpaceMouseBase__init__.
  cbn [heap self _base_command]. rewrite lookup_insert_eq. auto.
Qed.

(** Cases of a poll: the fields of the machine, the shape of the button
    list, and whether a callback is registered. *)
Ltac poll_cases m hw :=
  destruct m as [[iv st cb sx sy sw c] h w];
  destruct hw as [bs ax];
  destruct bs as [|[] [|[] bs]];
  destruct (cb !! "L"%string) eqn:EL;
  destruct (cb !! "R"%string) eqn:ER.

Lemma listen_command_ok hw m :
  command_ok m → command_ok (final (_listen_for_updates axes_to_twist hw m)).
Proof.
  intros (a & Ha & Hlen). revert Ha. unfold command_ok.
  poll_cases m hw; unfold command; cbn [heap self _base_command]; intros Ha.
  all: run; try finish_process; run.
  all: first [ by eauto
             | eexists; split; [reflexivity | apply twist_result_length] ].
Qed.

(** No method calls a callback: the world is as it was. *)
Lemma listen_world hw m :
  world (final (_listen_for_updates axes_to_twist hw m)) = world m.
Proof.
  poll_cases m hw; destruct (h !! c) eqn:Hc.
  all: run; try finish_process; run; reflexivity.
Qed.

Lemma quiet_not_timer_or_read (t : list event) :
  forallb quiet t = true → forallb (λ e, negb (is_timer_or_read e)) t = true.
Proof.
  induction t as [|e t IH]; [reflexivity|]. cbn [forallb]. unfold quiet at 1.
  rewrite !andb_true_iff. intros [[He _] Ht]. auto.
Qed.

Lemma quiet_not_lookup_or_reset (t : list event) :
  forallb quiet t = true → forallb (λ e, negb (is_lookup_or_reset e)) t = true.
Proof.
  induction t as [|e t IH]; [reflexivity|]. cbn [forallb]. unfold quiet at 1.
  rewrite !andb_true_iff. intros [[_ He] Ht]. auto.
Qed.

(** ** The claims *)

(** C3: for every twist [vx, vy, vz, wx, wy, wz], [_process_twist_command]
    returns and leaves the command
    [[v_x_sensitivity * vx, v_y_sensitivity * vy, omega_z_sensitivity * wz]];
    [vz], [wx] and [wy] do not matter; the sensitivities are those the
    object holds, which processing keeps and which the constructor took
    from its arguments. *)
Theorem C3_process_twist_projection m vx vy vz wx wy wz :
  let r := _process_twist_command [vx; vy; vz; wx; wy; wz] m in
  outcome r = Ok tt
  ∧ command (final r) =
      Some [(_v_x_sensitivity (self m) * vx)%float;
            (_v_y_sensitivity (self m) * vy)%float;
            (_omega_z_sensitivity (self m) * wz)%float]
  ∧ (∀ vz' wx' wy',
       command (final (_process_twist_command [vx; vy; vz'; wx'; wy'; wz] m)) =
       command (final r))
  ∧ (_v_x_sensitivity (self (final r)) = _v_x_sensitivity (self m)
     ∧ _v_y_sensitivity (self (final r)) = _v_y_sensitivity (self m)
     ∧ _omega_z_sensitivity (self (final r)) = _omega_z_sensitivity (self m))
  ∧ (∀ sx sy sw iv h (w : World),
       let o := self (__init__ (Some sx) (Some sy) (Some sw) iv h w) in
       _v_x_sensitivity o = sx ∧ _v_y_sensitivity o = sy ∧ _omega_z_sensitivity o = sw).
Proof.
  intros r. subst r.
  assert (Hcmd : ∀ a b c d e f,
    command (final (_process_twist_command [a; b; c; d; e; f] m)) =
      Some [(_v_x_sensitivity (self m) * a)%float;
            (_v_y_sensitivity (self m) * b)%float;
            (_omega_z_sensitivity (self m) * f)%float]).
  { intros a b c d e f.
    destruct (process_run [a; b; c; d; e; f] m) as (_ & -> & _).
    unfold command. cbn [heap self set_base_command _base_command].
    by rewrite lookup_insert_eq. }
  destruct (process_run [vx; vy; vz; wx; wy; wz] m) as (Ho & Hf & _).
  split; [exact Ho|]. split; [apply Hcmd|].
  split; [intros; by rewrite !Hcmd|].
  split; [by rewrite Hf|]. intros; by cbn.
Qed.

(** C4: [advance()] returns the array the object holds, and nothing
    changes: the object, the store and the world are as before, and no
    operation is performed. *)
Theorem C4_advance_returns_command_unchanged m :
  outcome (advance m) = Ok (_base_command (self m))
  ∧ final (advance m) = m
  ∧ trace (advance m) = []
  ∧ advance_value m = command m.
Proof. by destruct m as [[iv st cb sx sy sw c] h w]. Qed.

(** C5: after [reset()], [advance()] returns [[0.0, 0.0, 0.0]], whatever
    the command was. *)
Theorem C5_reset_then_advance_zero m :
  command_ok m →
  outcome (reset m) = Ok tt
  ∧ advance_value (final (reset m)) = Some [0; 0; 0]%float.
Proof.
  intros (a & Ha & Hlen). rewrite (reset_run m a Ha), Hlen.
  destruct m as [[iv st cb sx sy sw c] h w]. run. auto.
Qed.

(** C6: every poll starts the timer first, with the interval the object
    holds, then reads the device, and only then handles buttons and twist:
    the timer and the device are not touched again.  The reading is kept,
    the interval stays, and the constructor stores the interval it is
    given, 10 ms by default. *)
Theorem C6_listen_timer_then_read hw m :
  let r := _listen_for_updates axes_to_twist hw m in
  (∃ rest,
     trace r = EvStartTimer (_interval_ms (self m)) :: EvReadMouseState :: rest
     ∧ forallb (λ e, negb (is_timer_or_read e)) rest = true)
  ∧ _state (self (final r)) = hw
  ∧ _interval_ms (self (final r)) = _interval_ms (self m)
  ∧ (∀ sx sy sw iv h (w : World),
       _interval_ms (self (__init__ sx sy sw (Some iv) h w)) = iv
       ∧ _interval_ms (self (__init__ sx sy sw None h w)) = 10%float).
Proof.
  intros r. subst r. split; [|split; [|split]]; [| | |intros; by cbn].
  - poll_cases m hw; destruct (h !! c) eqn:Hc.
    all: run; try finish_process; run.
    all: eexists; split; [reflexivity|].
    all: cbn [forallb is_timer_or_read negb andb];
      first [reflexivity | by apply quiet_not_timer_or_read].
  - poll_cases m hw; destruct (h !! c) eqn:Hc.
    all: run; try finish_process; run; reflexivity.
  - poll_cases m hw; destruct (h !! c) eqn:Hc.
    all: run; try finish_process; run; reflexivity.
Qed.

(** C7: the command that [_process_twist_command] leaves depends on the
    sensitivities and the twist only: two objects with equal sensitivities,
    given the same twist, return or raise alike and end with equal
    commands, whatever their commands were before. *)
Theorem C7_process_twist_noninterference m1 m2 twist :
  _v_x_sensitivity (self m1) = _v_x_sensitivity (self m2) →
  _v_y_sensitivity (self m1) = _v_y_sensitivity (self m2) →
  _omega_z_sensitivity (self m1) = _omega_z_sensitivity (self m2) →
  outcome (_process_twist_command twist m1) = outcome (_process_twist_command twist m2)
  ∧ command (final (_process_twist_command twist m1)) =
    command (final (_process_twist_command twist m2)).
Proof.
  intros Hx Hy Hw.
  destruct (process_run twist m1) as (-> & -> & _).
  destruct (process_run twist m2) as (-> & -> & _).
  unfold command. cbn [heap self set_base_command _base_command].
  rewrite !lookup_insert_eq, Hx, Hy, Hw. auto.
Qed.

(** C8: the command is a 3-element array in every state the object can be
    in: after construction and after any sequence of [advance], [reset],
    [add_callback], polls and twist processing, returned or raised. *)
Theorem C8_command_always_length_3 m :
  reachable axes_to_twist m → command_ok m.
Proof.
  induction 1 as [sx sy sw iv h w | m _ IH | m _ IH | key f m _ IH
                 | hw m _ IH | twist m _ IH].
  - apply init_command_ok.
  - exact IH.
  - by apply reset_command_ok.
  - exact IH.
  - by apply listen_command_ok.
  - apply process_command_ok.
Qed.

(** C9: with both buttons pressed, or none, the poll looks up no callback
    and resets nothing; it does what processing the twist of the reading
    does; the two polls, on the same axes, return or raise alike and end
    in the same state: the same command, object, store and world, the
    reading they were given apart. *)
Theorem C9_both_buttons_as_no_buttons hw2 hw0 m :
  buttons hw2 !! 0 = Some true → buttons hw2 !! 1 = Some true →
  buttons hw0 !! 0 = Some false → buttons hw0 !! 1 = Some false →
  axes hw2 = axes hw0 →
  let r2 := _listen_for_updates axes_to_twist hw2 m in
  let r0 := _listen_for_updates axes_to_twist hw0 m in
  let p := _process_twist_command (axes_to_twist (axes hw0)) m in
  (forallb (λ e, negb (is_lookup_or_reset e)) (trace r2) = true
   ∧ forallb (λ e, negb (is_lookup_or_reset e)) (trace r0) = true)
  ∧ (outcome r2 = outcome p ∧ outcome r0 = outcome p)
  ∧ (forget_reading (final r2) = forget_reading (final p)
     ∧ forget_reading (final r0) = forget_reading (final p))
  ∧ outcome r2 = outcome r0
  ∧ forget_reading (final r2) = forget_reading (final r0)
  ∧ command (final r2) = command (final r0).
Proof.
  intros H20 H21 H00 H01 Hax r2 r0 p. subst r2 r0 p.
  assert (Hcase : ∀ hw, (buttons hw !! 0 = Some true ∧ buttons hw !! 1 = Some true)
      ∨ (buttons hw !! 0 = Some false ∧ buttons hw !! 1 = Some false) →
    let r := _listen_for_updates axes_to_twist hw m in
    let p := _process_twist_command (axes_to_twist (axes hw)) m in
    forallb (λ e, negb (is_lookup_or_reset e)) (trace r) = true
    ∧ outcome r = outcome p
    ∧ forget_reading (final r) = forget_reading (final p)).
  { intros hw Hb r p. subst r p.
    destruct (process_run (axes_to_twist (axes hw)) m) as (Hpo & Hpf & _).
    rewrite Hpo, Hpf. clear Hpo Hpf.
    destruct m as [[iv st cb sx sy sw c] h w]. destruct hw as [bs ax].
    cbn [buttons] in Hb.
    destruct bs as [|b0 [|b1 bs]]; cbn in Hb;
      [by destruct Hb as [[? _]|[? _]] | by destruct Hb as [[_ ?]|[_ ?]] |].
    assert (b0 = b1) as <- by (destruct Hb as [[? ?]|[? ?]]; congruence).
    clear Hb. destruct b0.
    all: run; finish_process; run.
    all: split; [cbn [forallb is_lookup_or_reset negb andb];
                 by apply quiet_not_lookup_or_reset | by split]. }
  destruct (Hcase hw2) as (Ht2 & Ho2 & Hf2); [by left|].
  destruct (Hcase hw0) as (Ht0 & Ho0 & Hf0); [by right|].
  rewrite Hax in Ho2, Hf2.
  assert (Hcmd : ∀ x y : Machine World,
    forget_reading x = forget_reading y → command x = command y).
  { intros [[? ? ? ? ? ? ?] ? ?] [[? ? ? ? ? ? ?] ? ?]. unfold command, forget_reading.
    cbn. by intros [= -> -> -> -> -> -> -> ->]. }
  repeat split; try done; try congruence.
  apply Hcmd. congruence.
Qed.

(** C10: when the reading has at least 2 buttons and its twist at least 6
    components, a poll returns: no index is out of bounds; and so does
    [_process_twist_command] on any twist of at least 6 components. *)
Theorem C10_listen_total_under_shape hw m :
  command_ok m →
  2 ≤ length (buttons hw) →
  6 ≤ length (axes_to_twist (axes hw)) →
  outcome (_listen_for_updates axes_to_twist hw m) = Ok tt
  ∧ (∀ twist, 6 ≤ length twist → outcome (_process_twist_command twist m) = Ok tt).
Proof.
  intros (a & Ha & Hlen) Hb Ht. split.
  - revert Ha Hb Ht. poll_cases m hw; unfold command; cbn [heap self _base_command buttons axes length];
      intros Ha Hb Ht; try lia.
    all: run; finish_process; run.
    all: by apply twist_result_ok.
  - intros twist Htw. destruct (process_run twist m) as (-> & _ & _).
    by apply twist_result_ok.
Qed.

(** ** Further properties of the methods *)

(** A poll on a reading with two buttons or more: the buttons decide only
    whether the array the object holds is filled with zeros first; what
    follows is [_process_twist_command] on the twist of the reading. *)
Lemma listen_run hw m a b0 b1 bs :
  command m = Some a →
  buttons hw = b0 :: b1 :: bs →
  let m0 := with_self (set_state hw) m in
  let m1 :=
    if negb b0 && b1
    then with_heap (<[_base_command (self m) := replicate (length a) 0%float]> (heap m)) m0
    else m0 in
  outcome (_listen_for_updates axes_to_twist hw m) =
    outcome (_process_twist_command (axes_to_twist (axes hw)) m1)
  ∧ final (_listen_for_updates axes_to_twist hw m) =
    final (_process_twist_command (axes_to_twist (axes hw)) m1).
Proof.
  destruct m as [[iv st cb sx sy sw c] h w]. destruct hw as [bs' ax].
  unfold command. cbn [heap self _base_command buttons]. intros Ha ->.
  destruct (cb !! "L"%string) eqn:EL; destruct (cb !! "R"%string) eqn:ER;
    destruct b0, b1; cbn [negb andb].
  all: run;
    match goal with
    | |- context [_process_twist_command ?tw ?m] =>
        destruct (_process_twist_command tw m) as [[? ?] ?]
    end; run; by split.
Qed.

Lemma fresh_not_base m a :
  command m = Some a → fresh (dom (heap m)) ≠ _base_command (self m).
Proof.
  unfold command. intros Ha Heq.
  apply (is_fresh (dom (heap m))). rewrite Heq. apply elem_of_dom. eauto.
Qed.

Lemma listen_short_buttons hw m :
  length (buttons hw) < 2 →
  outcome (_listen_for_updates axes_to_twist hw m) = Raise IndexError
  ∧ final (_listen_for_updates axes_to_twist hw m) = with_self (set_state hw) m.
Proof.
  destruct m as [[iv st cb sx sy sw c] h w]. destruct hw as [bs ax].
  cbn [buttons]. intros Hlen.
  destruct bs as [|[] [|b1 bs]]; cbn [length] in Hlen; try lia.
  all: run; by split.
Qed.

(** X1: a poll on a reading with fewer than two buttons raises [IndexError]
    at the button test; by then it has stored the reading and nothing
    else: command, store and world are as before. *)
Theorem X1_listen_short_buttons_raises hw m :
  length (buttons hw) < 2 →
  outcome (_listen_for_updates axes_to_twist hw m) = Raise IndexError
  ∧ final (_listen_for_updates axes_to_twist hw m) = with_self (set_state hw) m
  ∧ command (final (_listen_for_updates axes_to_twist hw m)) = command m
  ∧ heap (final (_listen_for_updates axes_to_twist hw m)) = heap m
  ∧ world (final (_listen_for_updates axes_to_twist hw m)) = world m.
Proof.
  intros Hlen. destruct (listen_short_buttons hw m Hlen) as (-> & ->).
  by destruct m as [[iv st cb sx sy sw c] h w].
Qed.

(** X2: on a twist with fewer than six components [_process_twist_command]
    raises [IndexError], and the command is replaced all the same: by the
    components written before the raise, zero elsewhere; the yaw component
    is never written. *)
Theorem X2_process_short_twist_partial twist m :
  length twist < 6 →
  outcome (_process_twist_command twist m) = Raise IndexError
  ∧ command (final (_process_twist_command twist m)) =
      Some [from_option (λ t0, (_v_x_sensitivity (self m) * t0)%float) 0%float (twist !! 0);
            from_option (λ t1, (_v_y_sensitivity (self m) * t1)%float) 0%float (twist !! 1);
            0%float].
Proof.
  intros Hlen. destruct (process_run twist m) as (-> & -> & _).
  unfold command, twist_result. cbn [heap self set_base_command _base_command].
  rewrite lookup_insert_eq.
  assert (H5 : twist !! 5 = None) by (apply lookup_ge_None; lia).
  rewrite H5.
  destruct twist as [|t0 [|t1 tw]]; by cbn.
Qed.

(** X3: [_process_twist_command] binds a new array and writes to no other:
    the address of the command is not one of the store before, and without
    it the store is the store before.  An array [advance()] returned earlier
    is not updated. *)
Theorem X3_process_binds_fresh_array twist m :
  (_base_command (self (final (_process_twist_command twist m))) ∉ dom (heap m))
  ∧ delete (_base_command (self (final (_process_twist_command twist m))))
      (heap (final (_process_twist_command twist m))) = heap m.
Proof.
  destruct (process_run twist m) as (_ & -> & _).
  cbn [heap self set_base_command _base_command].
  split; [apply is_fresh|].
  rewrite delete_insert_eq. apply delete_id, not_elem_of_dom, is_fresh.
Qed.

(** X4: after a poll on a reading with two buttons or more, the array the
    object held before is filled with zeros when the right button alone was
    pressed and is as before otherwise; the command is another array. *)
Theorem X4_listen_old_array hw m a b0 b1 bs :
  command m = Some a →
  buttons hw = b0 :: b1 :: bs →
  heap (final (_listen_for_updates axes_to_twist hw m)) !! _base_command (self m) =
    Some (if negb b0 && b1 then replicate (length a) 0%float else a)
  ∧ _base_command (self (final (_listen_for_updates axes_to_twist hw m))) ≠
    _base_command (self m).
Proof.
  intros Ha Hb. destruct (listen_run hw m a b0 b1 bs Ha Hb) as (_ & ->).
  pose proof (fresh_not_base m a Ha) as Hfresh.
  destruct (negb b0 && b1).
  - match goal with
    | |- context [_process_twist_command ?tw ?m1] =>
        destruct (process_run tw m1) as (_ & -> & _);
        pose proof (fresh_not_base m1 (replicate (length a) 0%float)) as Hf1
    end.
    unfold command in Hf1.
    cbn [heap self with_heap with_self set_state set_base_command _base_command] in *.
    rewrite lookup_insert_eq in Hf1. specialize (Hf1 eq_refl).
    split; [|exact Hf1].
    rewrite lookup_insert_ne by exact Hf1. by rewrite lookup_insert_eq.
  - match goal with
    | |- context [_process_twist_command ?tw ?m1] =>
        destruct (process_run tw m1) as (_ & -> & _)
    end.
    cbn [heap self with_heap with_self set_state set_base_command _base_command].
    split; [|exact Hfresh].
    by rewrite lookup_insert_ne by exact Hfresh.
Qed.

(** X5: [reset()] works in place: it keeps the object, the address and the
    length of the command, the other arrays and the world; a second
    [reset()] changes nothing more. *)
Theorem X5_reset_in_place_idempotent m a :
  command m = Some a →
  outcome (reset m) = Ok tt
  ∧ self (final (reset m)) = self m
  ∧ world (final (reset m)) = world m
  ∧ command (final (reset m)) = Some (replicate (length a) 0%float)
  ∧ delete (_base_command (self m)) (heap (final (reset m))) =
    delete (_base_command (self m)) (heap m)
  ∧ reset (final (reset m)) = (Ok tt, final (reset m), [EvFill (_base_command (self m))]).
Proof.
  intros Ha. rewrite (reset_run m a Ha).
  destruct m as [[iv st cb sx sy sw c] h w]. unfold command in *.
  cbn [heap self _base_command] in Ha.
  cbn [outcome final fst snd with_heap heap self world _base_command].
  rewrite lookup_insert_eq, delete_insert_eq.
  repeat split.
  rewrite (reset_run _ (replicate (length a) 0%float))
    by (unfold command; cbn [heap self _base_command]; apply lookup_insert_eq).
  cbn [with_heap heap self world _base_command].
  by rewrite length_replicate, insert_insert_eq.
Qed.

(** X6: the last poll wins.  On a reading with two buttons or more, the
    poll returns or raises, and leaves the command, as it would have without
    the poll before it, whatever that poll read and whether it raised. *)
Theorem X6_last_poll_wins hw' hw m :
  command_ok m →
  2 ≤ length (buttons hw) →
  outcome (_listen_for_updates axes_to_twist hw (final (_listen_for_updates axes_to_twist hw' m))) =
    outcome (_listen_for_updates axes_to_twist hw m)
  ∧ command (final (_listen_for_updates axes_to_twist hw
               (final (_listen_for_updates axes_to_twist hw' m)))) =
    command (final (_listen_for_updates axes_to_twist hw m)).
Proof.
  intros Hok Hlen.
  assert (Hsens : ∀ hw0 m0,
    _v_x_sensitivity (self (final (_listen_for_updates axes_to_twist hw0 m0))) =
      _v_x_sensitivity (self m0)
    ∧ _v_y_sensitivity (self (final (_listen_for_updates axes_to_twist hw0 m0))) =
      _v_y_sensitivity (self m0)
    ∧ _omega_z_sensitivity (self (final (_listen_for_updates axes_to_twist hw0 m0))) =
      _omega_z_sensitivity (self m0)).
  { intros hw0 m0. poll_cases m0 hw0; destruct (h !! c) eqn:Hc.
    all: run; try finish_process; run; by repeat split. }
  assert (Hone : ∀ m0, command_ok m0 →
    outcome (_listen_for_updates axes_to_twist hw m0) =
      (twist_result (_v_x_sensitivity (self m0)) (_v_y_sensitivity (self m0))
         (_omega_z_sensitivity (self m0)) (axes_to_twist (axes hw))).1
    ∧ command (final (_listen_for_updates axes_to_twist hw m0)) =
      Some (twist_result (_v_x_sensitivity (self m0)) (_v_y_sensitivity (self m0))
         (_omega_z_sensitivity (self m0)) (axes_to_twist (axes hw))).2).
  { intros m0 (a & Ha & _).
    destruct (buttons hw) as [|b0 [|b1 bs]] eqn:Hb; cbn [length] in Hlen; try lia.
    destruct (listen_run hw m0 a b0 b1 bs Ha Hb) as (-> & ->).
    match goal with
    | |- context [_process_twist_command ?tw ?m1] =>
        destruct (process_run tw m1) as (-> & -> & _)
    end.
    unfold command. destruct (negb b0 && b1);
      cbn [heap self with_heap with_self set_state set_base_command _base_command
           _v_x_sensitivity _v_y_sensitivity _omega_z_sensitivity];
      by rewrite lookup_insert_eq. }
  destruct (Hone m Hok) as (-> & ->).
  destruct (Hone _ (listen_command_ok hw' m Hok)) as (-> & ->).
  destruct (Hsens hw' m) as (-> & -> & ->). by split.
Qed.

(** X7: no method writes the interval, the callback table or the
    sensitivities, and none changes the world: a poll, [reset()] and
    [_process_twist_command] keep them, whether they return or raise. *)
Theorem X7_methods_keep_configuration hw twist m :
  (configuration (self (final (_listen_for_updates axes_to_twist hw m))) =
     configuration (self m)
   ∧ world (final (_listen_for_updates axes_to_twist hw m)) = world m)
  ∧ (configuration (self (final (reset m))) = configuration (self m)
     ∧ world (final (reset m)) = world m)
  ∧ (configuration (self (final (_process_twist_command twist m))) =
       configuration (self m)
     ∧ world (final (_process_twist_command twist m)) = world m).
Proof.
  split; [|split].
  - split; [|apply listen_world].
    poll_cases m hw; destruct (h !! c) eqn:Hc.
    all: run; try finish_process; run; reflexivity.
  - destruct m as [[iv st cb sx sy sw c] h w]. destruct (h !! c) eqn:Hc.
    all: run; by split.
  - destruct (process_run twist m) as (_ & -> & _). by split.
Qed.

(** X8: on an object whose command is in order, a poll returns exactly when
    the reading has two buttons or more and its twist six components or
    more; otherwise it raises [IndexError], and it raises nothing else: the
    callback table is subscripted only under a key it holds. *)
Theorem X8_listen_returns_iff_shape hw m :
  command_ok m →
  (outcome (_listen_for_updates axes_to_twist hw m) = Ok tt
   ↔ 2 ≤ length (buttons hw) ∧ 6 ≤ length (axes_to_twist (axes hw)))
  ∧ (outcome (_listen_for_updates axes_to_twist hw m) = Ok tt
     ∨ outcome (_listen_for_updates axes_to_twist hw m) = Raise IndexError).
Proof.
  intros (a & Ha & Hlen).
  destruct (decide (length (buttons hw) < 2)) as [Hshort|Hlong].
  - destruct (listen_short_buttons hw m Hshort) as (-> & _).
    split; [|by right]. split; [done | lia].
  - destruct (buttons hw) as [|b0 [|b1 bs]] eqn:Hb; cbn [length] in Hlong; try lia.
    destruct (listen_run hw m a b0 b1 bs Ha Hb) as (-> & _).
    match goal with
    | |- context [_process_twist_command ?tw ?m1] =>
        destruct (process_run tw m1) as (-> & _ & _)
    end.
    match goal with
    | |- context [twist_result ?x ?y ?z ?t] =>
        generalize x y z; intros x' y' z'
    end.
    destruct (decide (6 ≤ length (axes_to_twist (axes hw)))) as [H6|H6].
    + rewrite (twist_result_ok x' y' z' _ H6).
      split; [|by left]. split; [intros _; split; [cbn; lia | done] | done].
    + assert (H5 : axes_to_twist (axes hw) !! 5 = None) by (apply lookup_ge_None; lia).
      unfold twist_result. rewrite H5.
      destruct (_ !! 0); [destruct (_ !! 1)|]; cbn [fst].
      all: split; [|by right]; split; [done | intros [_ ?]; lia].
Qed.

(** X9: a new object holds the command [[0.0, 0.0, 0.0]], in an array of its
    own that leaves the store it was built on as it was; [reset()] on a new
    object returns and changes nothing. *)
Theorem X9_init_zero_command sx sy sw iv h (w : World) :
  let m := __init__ sx sy sw iv h w in
  advance_value m = Some [0; 0; 0]%float
  ∧ (_base_command (self m) ∉ dom h)
  ∧ delete (_base_command (self m)) (heap m) = h
  ∧ outcome (reset m) = Ok tt
  ∧ final (reset m) = m.
Proof.
  intros m. subst m. unfold __init__, SpaceMouseBase__init__.
  run. rewrite delete_insert_eq.
  repeat split; try done; [apply is_fresh | apply delete_id, not_elem_of_dom, is_fresh].
Qed.

End Proofs.

(** ** The callbacks and the right button, on concrete polls *)

(** C1: on a device with callbacks under "L" and under "R", a poll with the
    left button alone evaluates [self._additional_callbacks["L"]] and a poll
    with the right button alone evaluates [self._additional_callbacks["R"]],
    and neither calls what it found: the world a call would have changed is
    as before. *)
Theorem C1_callbacks_looked_up_not_called :
  let l := _listen_for_updates axes_as_twist hw_left dev_LR in
  let r := _listen_for_updates axes_as_twist hw_right dev_LR in
  (_additional_callbacks (self dev_LR) !! "L"%string = Some count_call
   ∧ outcome l = Ok tt
   ∧ existsb (is_getitem "L") (trace l) = true
   ∧ world (final l) = world dev_LR
   ∧ world (final l) ≠ count_call (world dev_LR))
  ∧ (_additional_callbacks (self dev_LR) !! "R"%string = Some count_call
     ∧ outcome r = Ok tt
     ∧ existsb (is_getitem "R") (trace r) = true
     ∧ world (final r) = world dev_LR
     ∧ world (final r) ≠ count_call (world dev_LR)).
Proof. vm_compute. repeat split; discriminate. Qed.

(** C2: on a device whose command is [[0.8, 0.8, 6.0]], a poll with the right
    button alone and axes [[1, 2, 3, 4, 5, 6]] fills the array the object
    held with zeros, then binds a new array with the projection of the
    twist: [advance()] returns [[0.8 * 1, 0.4 * 2, 1.0 * 6]], not zeros. *)
Theorem C2_right_button_reset_overwritten :
  let old := _base_command (self dev_moving) in
  let r := _listen_for_updates axes_as_twist hw_right dev_moving in
  outcome r = Ok tt
  ∧ In (EvFill old) (trace r)
  ∧ heap (final r) !! old = Some [0; 0; 0]%float
  ∧ _base_command (self (final r)) ≠ old
  ∧ advance_value (final r) = Some [0.8 * 1; 0.4 * 2; 1.0 * 6]%float
  ∧ advance_value (final r) ≠ Some [0; 0; 0]%float.
Proof.
  vm_compute. repeat split; try discriminate.
  do 5 right. by left.
Qed.

(** ** The claims on concrete devices *)

(** [reset()] on a device that is moving. *)
Lemma C5_reset_then_advance_zero_witness :
  command_ok dev_moving
  ∧ outcome (reset dev_moving) = Ok tt
  ∧ advance_value (final (reset dev_moving)) = Some [0; 0; 0]%float.
Proof.
  assert (H : command_ok dev_moving).
  { eexists. split; [vm_compute; reflexivity | reflexivity]. }
  split; [exact H | exact (C5_reset_then_advance_zero dev_moving H)].
Defined.

(** Two devices with different commands and equal sensitivities. *)
Lemma C7_process_twist_noninterference_witness :
  command dev_moving ≠ command dev_other
  ∧ outcome (_process_twist_command a_twist dev_moving) =
    outcome (_process_twist_command a_twist dev_other)
  ∧ command (final (_process_twist_command a_twist dev_moving)) =
    command (final (_process_twist_command a_twist dev_other)).
Proof.
  split.
  - vm_compute. discriminate.
  - apply (C7_process_twist_noninterference dev_moving dev_other a_twist);
      reflexivity.
Defined.

(** The device after one poll. *)
Lemma C8_command_always_length_3_witness :
  reachable axes_as_twist dev_moving ∧ command_ok dev_moving.
Proof.
  assert (H : reachable axes_as_twist dev_moving).
  { unfold dev_moving, dev0. apply reach_listen, reach_init. }
  split; [exact H | exact (C8_command_always_length_3 axes_as_twist dev_moving H)].
Defined.

(** Both buttons against none, with callbacks registered. *)
Lemma C9_both_buttons_as_no_buttons_witness :
  outcome (_listen_for_updates axes_as_twist hw_both dev_LR) =
    outcome (_listen_for_updates axes_as_twist hw_none dev_LR)
  ∧ forget_reading (final (_listen_for_updates axes_as_twist hw_both dev_LR)) =
    forget_reading (final (_listen_for_updates axes_as_twist hw_none dev_LR))
  ∧ command (final (_listen_for_updates axes_as_twist hw_both dev_LR)) =
    command (final (_listen_for_updates axes_as_twist hw_none dev_LR)).
Proof.
  pose proof (C9_both_buttons_as_no_buttons axes_as_twist hw_both hw_none dev_LR
    eq_refl eq_refl eq_refl eq_refl eq_refl) as H.
  cbv zeta in H. destruct H as (_ & _ & _ & Ho & Hf & Hc). auto.
Defined.

(** A right-button poll with two buttons and six axes. *)
Lemma C10_listen_total_under_shape_witness :
  outcome (_listen_for_updates axes_as_twist hw_right dev_moving) = Ok tt.
Proof.
  apply (C10_listen_total_under_shape axes_as_twist hw_right dev_moving).
  - eexists. split; [vm_compute; reflexivity | reflexivity].
  - simpl. lia.
  - simpl. lia.
Defined.

(** ** The further properties on concrete devices *)

(** A reading with one button, on a device that is moving. *)
Lemma X1_listen_short_buttons_raises_witness :
  outcome (_listen_for_updates axes_as_twist hw_one_button dev_moving) = Raise IndexError
  ∧ command (final (_listen_for_updates axes_as_twist hw_one_button dev_moving)) =
    command dev_moving.
Proof.
  destruct (X1_listen_short_buttons_raises axes_as_twist hw_one_button dev_moving)
    as (Ho & _ & Hc & _); [simpl; lia|].
  split; [exact Ho | exact Hc].
Defined.

(** A twist of two components, on a device that is moving. *)
Lemma X2_process_short_twist_partial_witness :
  outcome (_process_twist_command [1; 2]%float dev_moving) = Raise IndexError
  ∧ command (final (_process_twist_command [1; 2]%float dev_moving)) =
    Some [0.8 * 1; 0.4 * 2; 0]%float.
Proof.
  apply (X2_process_short_twist_partial [1; 2]%float dev_moving). simpl. lia.
Defined.

(** The right button alone, on a device that is moving. *)
Lemma X4_listen_old_array_witness :
  heap (final (_listen_for_updates axes_as_twist hw_right dev_moving))
    !! _base_command (self dev_moving) = Some [0; 0; 0]%float
  ∧ _base_command (self (final (_listen_for_updates axes_as_twist hw_right dev_moving))) ≠
    _base_command (self dev_moving).
Proof.
  apply (X4_listen_old_array axes_as_twist hw_right dev_moving
           [0.8 * 1; 0.4 * 2; 1.0 * 6]%float false true []).
  - vm_compute. reflexivity.
  - reflexivity.
Defined.

(** [reset()] twice on a device that is moving. *)
Lemma X5_reset_in_place_idempotent_witness :
  command dev_moving = Some [0.8 * 1; 0.4 * 2; 1.0 * 6]%float
  ∧ command (final (reset dev_moving)) = Some [0; 0; 0]%float
  ∧ final (reset (final (reset dev_moving))) = final (reset dev_moving).
Proof.
  assert (H : command dev_moving = Some [0.8 * 1; 0.4 * 2; 1.0 * 6]%float)
    by (vm_compute; reflexivity).
  destruct (X5_reset_in_place_idempotent dev_moving _ H) as (_ & _ & _ & Hc & _ & Hr).
  split; [exact H|]. split; [exact Hc|]. by rewrite Hr.
Defined.

(** A poll that raises, then a poll with the left button. *)
Lemma X6_last_poll_wins_witness :
  outcome (_listen_for_updates axes_as_twist hw_two_axes dev0) = Raise IndexError
  ∧ command (final (_listen_for_updates axes_as_twist hw_left
               (final (_listen_for_updates axes_as_twist hw_two_axes dev0)))) =
    command (final (_listen_for_updates axes_as_twist hw_left dev0)).
Proof.
  split; [vm_compute; reflexivity|].
  apply (X6_last_poll_wins axes_as_twist hw_two_axes hw_left dev0).
  - eexists. split; [vm_compute; reflexivity | reflexivity].
  - simpl. lia.
Defined.

(** A reading with two axes: the poll raises. *)
Lemma X8_listen_returns_iff_shape_witness :
  outcome (_listen_for_updates axes_as_twist hw_two_axes dev_moving) ≠ Ok tt.
Proof.
  destruct (X8_listen_returns_iff_shape axes_as_twist hw_two_axes dev_moving)
    as ([Hto _] & _).
  - eexists. split; [vm_compute; reflexivity | reflexivity].
  - intros Hok. destruct (Hto Hok) as [_ H6]. simpl in H6. lia.
Defined.
